(** * Python Remove Background Provider: the HTTP gateway of [main.py]

    A shallow embedding of the request path of [main.py]: the API-key
    dependency [verify_api_key], the handler [remove_background], its alias
    [remove_background_advanced], and the way FastAPI turns what they return
    or raise into an HTTP response.

    The inference library (rembg) is an opaque collaborator: a value of
    [Rembg], with every invocation written to a journal, so that statements
    such as "called once" or "never called" are statements about that
    journal.  An exception does not undo what happened before it, so the
    monad keeps the journal on the failing path too. *)

From Stdlib Require Import String Ascii List ZArith Bool.
From Stdlib Require Import Init.Byte.
From Stdlib Require Import DecimalString Lia.
Import ListNotations.

Local Open Scope string_scope.
Local Open Scope Z_scope.

(** ** Python conventions used by the source *)

Module Py.

(** Truthiness of a [str | None] value: [None] and [""] are falsy. *)
Definition truthy (o : option string) : bool :=
  match o with
  | None => false
  | Some s => negb (s =? "")%string
  end.

(** [x or d] on a [str | None] value. *)
Definition or_else (o : option string) (d : string) : string :=
  match o with
  | None => d
  | Some s => if (s =? "")%string then d else s
  end.

(** What an f-string writes for [{x}] when [x] is a [str | None]. *)
Definition format (o : option string) : string :=
  match o with
  | None => "None"
  | Some s => s
  end.

(** [s.startswith(p)]. *)
Definition startswith (s p : string) : bool := String.prefix p s.

(** [a == b] on [str | None] values; [a != b] is its negation. *)
Definition eqb (a b : option string) : bool :=
  match a, b with
  | Some x, Some y => (x =? y)%string
  | None, None => true
  | _, _ => false
  end.

End Py.

(** ** Exceptions *)

(** The classes the source tells apart.  [ImportError] is the only class
    named in an [except] clause besides [HTTPException]; every other
    subclass of [Exception] is [OtherError]. *)
Inductive exn_class : Type :=
| ImportError
| OtherError.

(** An ordinary Python exception: its class and [str(e)]. *)
Record py_exception : Type := mk_exn {
  exn_kind : exn_class;
  exn_str : string
}.

(** What can travel up the handler: FastAPI's [HTTPException], or an
    ordinary exception.  The collaborator knows nothing of FastAPI and
    raises only ordinary ones (see [Rembg]). *)
Inductive raised : Type :=
| HTTPException (status_code : Z) (detail : string)
| PyExc (e : py_exception).

(** ** Requests, responses *)

(** Starlette's [UploadFile], as far as the handler reads it. *)
Record UploadFile : Type := mk_upload {
  filename : option string;
  content_type : option string;
  file_bytes : list byte          (* what [await file.read()] returns *)
}.

(** The parameters of [remove_background] once bound. *)
Record Params : Type := mk_params {
  file : UploadFile;
  model : string;
  alpha_matting : bool;
  alpha_matting_foreground_threshold : Z;
  alpha_matting_background_threshold : Z;
  alpha_matting_erode_size : Z
}.

(** A request as it arrives: the [X-API-Key] header and the fields that the
    client may leave out. *)
Record Request : Type := mk_request {
  x_api_key : option string;
  req_file : UploadFile;
  req_model : option string;
  req_alpha_matting : option bool;
  req_foreground_threshold : option Z;
  req_background_threshold : option Z;
  req_erode_size : option Z
}.

(** The defaults are those of the signature of [remove_background]
    (and, identically, of [remove_background_advanced]). *)
Definition bind_params (r : Request) : Params :=
  {| file := req_file r;
     model := match req_model r with Some m => m | None => "u2net" end;
     alpha_matting :=
       match req_alpha_matting r with Some b => b | None => false end;
     alpha_matting_foreground_threshold :=
       match req_foreground_threshold r with Some n => n | None => 240 end;
     alpha_matting_background_threshold :=
       match req_background_threshold r with Some n => n | None => 10 end;
     alpha_matting_erode_size :=
       match req_erode_size r with Some n => n | None => 10 end |}.

Inductive Body : Type :=
| Bytes (b : list byte)
| JsonDetail (detail : string)       (* the JSON object {"detail": ...} *)
| PlainText (text : string).

Record Response : Type := mk_response {
  status : Z;
  media_type : string;
  headers : list (string * string);
  content : Body
}.

(** [headers[name]] on the dict literal of the source. *)
Fixpoint header (name : string) (hs : list (string * string)) : option string :=
  match hs with
  | [] => None
  | (k, v) :: rest => if (k =? name)%string then Some v else header name rest
  end.

(** FastAPI's handler for [HTTPException]: the status code and a JSON body
    holding [detail]. *)
Definition http_exception_response (code : Z) (detail : string) : Response :=
  {| status := code;
     media_type := "application/json";
     headers := [];
     content := JsonDetail detail |}.

(** ** The collaborator and the journal *)

Section Gateway.

(** The session object that [new_session] returns is opaque. *)
Context {Session : Type}.

(** Keyword arguments of the first [remove] call of the source. *)
Record MattingArgs : Type := mk_matting {
  kw_alpha_matting : bool;
  kw_foreground_threshold : Z;
  kw_background_threshold : Z;
  kw_erode_size : Z
}.

(** The two functions imported from rembg.  Each returns or raises; as in
    the specification, the result is a function of the arguments alone. *)
Record Rembg : Type := mk_rembg {
  new_session : string -> py_exception + Session;
  remove : list byte -> Session -> option MattingArgs ->
           py_exception + list byte
}.

Inductive Call : Type :=
| NewSession (model_name : string)
| Remove (data : list byte) (session : Session) (kw : option MattingArgs).

Inductive LogLine : Type :=
| LogInfo (msg : string)
| LogError (msg : string).

Record World : Type := mk_world {
  calls : list Call;       (* collaborator invocations, oldest first *)
  log : list LogLine       (* lines written through [logger] *)
}.

Definition fresh : World := {| calls := []; log := [] |}.

(** *** State and exceptions *)

Definition M (A : Type) : Type := World -> (raised + A) * World.

Definition ret {A} (a : A) : M A := fun w => (inr a, w).

Definition bind {A B} (m : M A) (k : A -> M B) : M B :=
  fun w =>
    match m w with
    | (inl e, w') => (inl e, w')
    | (inr a, w') => k a w'
    end.

Definition raise {A} (e : raised) : M A := fun w => (inl e, w).

(** [try: m  except ...: h e] where [h] chooses by the class of [e]. *)
Definition try_except {A} (m : M A) (h : raised -> M A) : M A :=
  fun w =>
    match m w with
    | (inl e, w') => h e w'
    | (inr a, w') => (inr a, w')
    end.

Definition record_call (c : Call) : M unit :=
  fun w => (inr tt, {| calls := calls w ++ [c]; log := log w |}).

Definition logger (l : LogLine) : M unit :=
  fun w => (inr tt, {| calls := calls w; log := log w ++ [l] |}).

(** Lift a collaborator result: a raised exception becomes [PyExc]. *)
Definition of_result {A} (r : py_exception + A) : M A :=
  match r with
  | inl e => raise (PyExc e)
  | inr a => ret a
  end.

End Gateway.

Arguments Rembg : clear implicits.
Arguments Call : clear implicits.
Arguments World : clear implicits.
Arguments M : clear implicits.

Declare Scope py_scope.
Delimit Scope py_scope with py.
Notation "x <- m ;; k" := (bind m (fun x => k))
  (at level 100, m at next level, right associativity) : py_scope.
Notation "m ;;; k" := (bind m (fun _ => k))
  (at level 100, right associativity) : py_scope.

Local Open Scope py_scope.

(** ** Configuration read at import time *)

(** [API_KEY] is [os.getenv("X_API_KEY")]; [rembg] is the module that
    [from rembg import remove, new_session] finds, if it finds one. *)
Record Env (Session : Type) : Type := mk_env {
  API_KEY : option string;
  rembg : option (Rembg Session)
}.

Arguments mk_env {Session}.
Arguments API_KEY {Session}.
Arguments rembg {Session}.

(** ** [verify_api_key] *)

Definition verify_api_key (API_KEY x_api_key : option string) : raised + bool :=
  if negb (Py.truthy API_KEY) then
    inr true
  else if negb (Py.truthy x_api_key) then
    inl (HTTPException 401 "X-API-Key header is required")
  else if negb (Py.eqb x_api_key API_KEY) then
    inl (HTTPException 401 "Invalid API key")
  else
    inr true.

(** ** [remove_background] *)

(** [not file.content_type or not file.content_type.startswith('image/')];
    the right operand is evaluated only for a non-empty string. *)
Definition not_an_image (ct : option string) : bool :=
  match ct with
  | None => true
  | Some s => if negb (Py.truthy ct) then true
              else negb (Py.startswith s "image/")
  end.

Section Handlers.

Context {Session : Type}.
Variable env : Env Session.

Definition import_rembg : M Session (Rembg Session) :=
  match rembg env with
  | Some r => ret r
  | None => raise (PyExc (mk_exn ImportError "No module named 'rembg'"))
  end.

Definition call_new_session (r : Rembg Session) (name : string)
  : M Session Session :=
  record_call (NewSession name) ;;;
  of_result (new_session r name).

Definition call_remove (r : Rembg Session) (data : list byte)
    (s : Session) (kw : option MattingArgs) : M Session (list byte) :=
  record_call (Remove data s kw) ;;;
  of_result (remove r data s kw).

Definition remove_background (p : Params) : M Session Response :=
  try_except
    ((if not_an_image (content_type (file p)) then
        raise (HTTPException 400 "File must be an image")
      else ret tt) ;;;
     let file_content := file_bytes (file p) in
     r <- try_except import_rembg
            (fun e =>
               match e with
               | PyExc {| exn_kind := ImportError |} =>
                   raise (HTTPException 500
                     "rembg not installed. Please install with: pip install rembg")
               | _ => raise e
               end) ;;
     session <- call_new_session r (model p) ;;
     logger (LogInfo ("Processing image with model: " ++ model p)) ;;;
     output <-
       (if alpha_matting p then
          call_remove r file_content session
            (Some {| kw_alpha_matting := alpha_matting p;
                     kw_foreground_threshold :=
                       alpha_matting_foreground_threshold p;
                     kw_background_threshold :=
                       alpha_matting_background_threshold p;
                     kw_erode_size := alpha_matting_erode_size p |})
        else
          call_remove r file_content session None) ;;
     ret {| status := 200;
            media_type := "image/png";
            headers :=
              [("Content-Disposition",
                "attachment; filename=bg_removed_"
                  ++ Py.format (filename (file p)));
               ("X-Original-Filename",
                Py.or_else (filename (file p)) "image");
               ("X-Model-Used", model p)];
            content := Bytes output |})
    (fun e =>
       match e with
       | HTTPException _ _ => raise e
       | PyExc ex =>
           logger (LogError ("Error processing image: " ++ exn_str ex)) ;;;
           raise (HTTPException 500
                    ("Error processing image: " ++ exn_str ex))
       end).

(** ** [remove_background_advanced] *)

Definition remove_background_advanced (p : Params) : M Session Response :=
  remove_background
    {| file := file p;
       model := model p;
       alpha_matting := alpha_matting p;
       alpha_matting_foreground_threshold :=
         alpha_matting_foreground_threshold p;
       alpha_matting_background_threshold :=
         alpha_matting_background_threshold p;
       alpha_matting_erode_size := alpha_matting_erode_size p |}.

(** ** Routes *)

(** A route declared with [Depends(verify_api_key)]: the dependency runs
    first, and the handler only if it returned. *)
Definition protected (handler : Params -> M Session Response)
    (r : Request) : M Session Response :=
  _ <- (match verify_api_key (API_KEY env) (x_api_key r) with
        | inl e => raise e
        | inr ok => ret ok
        end) ;;
  handler (bind_params r).

(** What the client receives, and the world after the request. *)
Definition serve (m : M Session Response) : Response * World Session :=
  match m fresh with
  | (inr resp, w) => (resp, w)
  | (inl (HTTPException code detail), w) =>
      (http_exception_response code detail, w)
  | (inl (PyExc _), w) =>
      ({| status := 500;
          media_type := "text/plain";
          headers := [];
          content := PlainText "Internal Server Error" |}, w)
  end.

Definition post_bg_remove (r : Request) : Response * World Session :=
  serve (protected remove_background r).

Definition post_bg_remove_advanced (r : Request)
  : Response * World Session :=
  serve (protected remove_background_advanced r).

End Handlers.

(** ** Start-up code of [main.py] *)

(** Strings are read as sequences of code points below 256. *)
Module PyStr.

(** [c.isspace()] for a code point below 256: tab to carriage return,
    the four separators 28..31, space, NEL and the no-break space. *)
Definition isspace (c : ascii) : bool :=
  let n := nat_of_ascii c in
  ((9 <=? n) && (n <=? 13) || (28 <=? n) && (n <=? 31)
   || (n =? 32) || (n =? 133) || (n =? 160))%nat.

(** [s.lstrip()]. *)
Fixpoint lstrip (s : string) : string :=
  match s with
  | EmptyString => EmptyString
  | String c rest => if isspace c then lstrip rest else s
  end.

(** [s.rstrip()]. *)
Fixpoint rstrip (s : string) : string :=
  match s with
  | EmptyString => EmptyString
  | String c rest =>
      match rstrip rest with
      | EmptyString => if isspace c then EmptyString else String c EmptyString
      | kept => String c kept
      end
  end.

(** [s.strip()]. *)
Definition strip (s : string) : string := rstrip (lstrip s).

(** [s.split(sep)] for a separator of one character: one piece more than
    there are separators, so the empty string gives one empty piece. *)
Fixpoint split (sep : ascii) (s : string) : list string :=
  match s with
  | EmptyString => [EmptyString]
  | String c rest =>
      if Ascii.eqb c sep then EmptyString :: split sep rest
      else match split sep rest with
           | piece :: pieces => String c piece :: pieces
           | [] => [String c EmptyString]
           end
  end.

(** [str(n)] for an [int]. *)
Definition of_int (n : Z) : string := NilZero.string_of_int (Z.to_int n).

End PyStr.

(** [ALLOWED_ORIGINS]: the variable of that name (["*"] when unset) split
    at commas; each piece stripped, the pieces that strip to nothing
    dropped. *)
Definition parse_allowed_origins (value : option string) : list string :=
  let ALLOWED_ORIGINS :=
    PyStr.split "," (match value with Some s => s | None => "*" end) in
  map PyStr.strip
    (filter (fun origin => Py.truthy (Some (PyStr.strip origin)))
       ALLOWED_ORIGINS).

(** The line written at import time when [not API_KEY]. *)
Definition startup_warning (API_KEY : option string) : option string :=
  if negb (Py.truthy API_KEY) then
    Some ("X_API_KEY not set in environment variables. "
          ++ "API will be accessible without authentication!")
  else None.

(** ** The routes that return JSON *)

#[local] Unset Elimination Schemes.
Inductive Json : Type :=
| JString (s : string)
| JList (items : list Json)
| JObject (fields : list (string * Json)).
#[local] Set Elimination Schemes.

(** [root]. *)
Definition root : Json :=
  JObject [("message", JString "Python Remove Background Provider");
           ("status", JString "running")].

(** [health_check]. *)
Definition health_check : Json :=
  JObject [("status", JString "healthy");
           ("service", JString "python-remove-bg-provider")].

Definition model_entry (name description : string) : Json :=
  JObject [("name", JString name); ("description", JString description)].

(** [list_available_models]. *)
Definition list_available_models : Json :=
  JObject
    [("models",
      JList
        [model_entry "u2net"
           "General purpose model, good balance of speed and quality";
         model_entry "u2net_human_seg" "Optimized for human subjects";
         model_entry "silueta" "Good for portraits and people";
         model_entry "isnet-general-use"
           "High quality general purpose model"])].

(** What a route sends back: the [Response] of the two image routes, or a
    status with a JSON body. *)
Inductive Reply : Type :=
| ImageReply (resp : Response)
| JsonReply (code : Z) (body : Json).

Definition reply_status (a : Reply) : Z :=
  match a with
  | ImageReply resp => status resp
  | JsonReply code _ => code
  end.

(** A request, already matched to the route that serves it. *)
Inductive Routed : Type :=
| GetRoot (x_api_key : option string)
| GetHealth (x_api_key : option string)
| GetModels (x_api_key : option string)
| PostBgRemove (r : Request)
| PostBgRemoveAdvanced (r : Request).

(** [GET /models]: the route declares [Depends(verify_api_key)]. *)
Definition get_models (API_KEY x_api_key : option string) : Reply :=
  match verify_api_key API_KEY x_api_key with
  | inl (HTTPException code detail) =>
      JsonReply code (JObject [("detail", JString detail)])
  | inl (PyExc _) => JsonReply 500 (JString "Internal Server Error")
  | inr _ => JsonReply 200 list_available_models
  end.

(** The application: the five routes of [main.py]. *)
Definition app {Session : Type} (env : Env Session) (q : Routed)
  : Reply * World Session :=
  match q with
  | GetRoot _ => (JsonReply 200 root, fresh)
  | GetHealth _ => (JsonReply 200 health_check, fresh)
  | GetModels key => (get_models (API_KEY env) key, fresh)
  | PostBgRemove r =>
      let (resp, w) := post_bg_remove env r in (ImageReply resp, w)
  | PostBgRemoveAdvanced r =>
      let (resp, w) := post_bg_remove_advanced env r in (ImageReply resp, w)
  end.

(** The routes declared with [Depends(verify_api_key)]. *)
Definition protected_route (q : Routed) : bool :=
  match q with
  | GetRoot _ | GetHealth _ => false
  | GetModels _ | PostBgRemove _ | PostBgRemoveAdvanced _ => true
  end.

(** The X-API-Key header of a request. *)
Definition routed_key (q : Routed) : option string :=
  match q with
  | GetRoot k | GetHealth k | GetModels k => k
  | PostBgRemove r | PostBgRemoveAdvanced r => x_api_key r
  end.

(** ** The analysis of results in [load_test.py] *)

Module LoadTest.

Section Results.

(** Differences of [time.time()] readings are floats; they are carried
    along and never inspected here. *)
Variable Time : Type.

(** The dict that [make_request] returns; the key ['error'] is there only
    when an exception was caught. *)
Record Result : Type := mk_result {
  status_code : Z;
  response_time : Time;
  response_size : Z;
  success : bool;
  error : option string
}.

(** [make_request], given what [session.post] and [response.read] did:
    they raised (the text of the exception), or they gave a status and a
    body. *)
Definition make_request (elapsed : Time) (outcome : string + Z * list byte)
  : Result :=
  match outcome with
  | inr (code, result) =>
      {| status_code := code;
         response_time := elapsed;
         response_size := Z.of_nat (length result);
         success := (code =? 200);
         error := None |}
  | inl e =>
      {| status_code := 0;
         response_time := elapsed;
         response_size := 0;
         success := false;
         error := Some e |}
  end.

Definition successful_requests (results : list Result) : list Result :=
  filter (fun r => success r) results.

Definition failed_requests (results : list Result) : list Result :=
  filter (fun r => negb (success r)) results.

(** A [dict] from strings to counts, in insertion order. *)
Definition Dict : Type := list (string * Z).

(** [d.get(k, default)]. *)
Fixpoint dict_get (d : Dict) (k : string) (default : Z) : Z :=
  match d with
  | [] => default
  | (k', v) :: rest => if (k' =? k)%string then v else dict_get rest k default
  end.

(** [d[k] = v]: an existing key keeps its place, a new one goes last. *)
Fixpoint dict_set (d : Dict) (k : string) (v : Z) : Dict :=
  match d with
  | [] => [(k, v)]
  | (k', v') :: rest =>
      if (k' =? k)%string then (k', v) :: rest
      else (k', v') :: dict_set rest k v
  end.

(** [req.get('error', f"HTTP {req['status_code']}")]. *)
Definition error_label (req : Result) : string :=
  match error req with
  | Some e => e
  | None => "HTTP " ++ PyStr.of_int (status_code req)
  end.

(** The loop that fills [error_counts]. *)
Definition count_errors (failed_requests : list Result) : Dict :=
  fold_left
    (fun error_counts req =>
       let error := error_label req in
       dict_set error_counts error (dict_get error_counts error 0 + 1))
    failed_requests [].

End Results.

Arguments status_code {Time}.
Arguments response_time {Time}.
Arguments response_size {Time}.
Arguments success {Time}.
Arguments error {Time}.
Arguments make_request {Time}.
Arguments successful_requests {Time}.
Arguments failed_requests {Time}.
Arguments error_label {Time}.
Arguments count_errors {Time}.

End LoadTest.

(** ** Further samples *)

Module MoreSamples.

(** A deployment without rembg. *)
Definition env_bare : Env nat :=
  {| API_KEY := Some "test-api-key-12345"; rembg := None |}.

(** An upload declaring the bare prefix [image/]. *)
Definition bare_image : UploadFile :=
  {| filename := Some "x";
     content_type := Some "image/";
     file_bytes := [] |}.

End MoreSamples.

(** ** Sample configurations and requests *)

Module Samples.

Definition png_in : list byte := [x89; x50; x4e; x47].
Definition png_out : list byte := [x89; x50; x4e; x47; x00].

(** A collaborator that always succeeds; its sessions are numbered. *)
Definition rembg_ok : Rembg nat :=
  {| new_session := fun _ => inr 7%nat;
     remove := fun _ _ _ => inr png_out |}.

(** A collaborator whose [remove] raises. *)
Definition rembg_failing : Rembg nat :=
  {| new_session := fun _ => inr 7%nat;
     remove := fun _ _ _ => inl (mk_exn OtherError "Processing failed") |}.

Definition env_ok : Env nat :=
  {| API_KEY := Some "test-api-key-12345"; rembg := Some rembg_ok |}.

Definition env_failing : Env nat :=
  {| API_KEY := Some "test-api-key-12345"; rembg := Some rembg_failing |}.

Definition test_png : UploadFile :=
  {| filename := Some "test.png";
     content_type := Some "image/png";
     file_bytes := png_in |}.

Definition test_txt : UploadFile :=
  {| filename := Some "test.txt";
     content_type := Some "text/plain";
     file_bytes := png_in |}.

(** An upload whose part carries [filename=""]. *)
Definition unnamed_png : UploadFile :=
  {| filename := Some "";
     content_type := Some "image/png";
     file_bytes := png_in |}.

(** An [UploadFile] built without a filename. *)
Definition nameless_png : UploadFile :=
  {| filename := None;
     content_type := Some "image/png";
     file_bytes := png_in |}.

Definition plain (key : option string) (f : UploadFile) : Request :=
  {| x_api_key := key;
     req_file := f;
     req_model := None;
     req_alpha_matting := None;
     req_foreground_threshold := None;
     req_background_threshold := None;
     req_erode_size := None |}.

Definition with_thresholds (matting : bool) (fg bg er : Z) : Request :=
  {| x_api_key := Some "test-api-key-12345";
     req_file := test_png;
     req_model := Some "silueta";
     req_alpha_matting := Some matting;
     req_foreground_threshold := Some fg;
     req_background_threshold := Some bg;
     req_erode_size := Some er |}.

End Samples.

(** ** Vocabulary of the properties *)

(** The secret counts as configured when [API_KEY] is truthy: the source
    tests [not API_KEY], so an unset variable and an empty one are alike. *)
Definition secret_configured (key : option string) : Prop :=
  Py.truthy key = true.

(** [verify_api_key] returned instead of raising. *)
Definition allows (key hdr : option string) : Prop :=
  verify_api_key key hdr = inr true.

(** The upload declares a media type that starts with [image/]. *)
Definition declares_image (f : UploadFile) : bool :=
  match content_type f with
  | Some s => Py.startswith s "image/"
  | None => false
  end.

(** The keyword arguments that the [remove] call of a request carries. *)
Definition matting_args (p : Params) : option MattingArgs :=
  if alpha_matting p then
    Some {| kw_alpha_matting := true;
            kw_foreground_threshold := alpha_matting_foreground_threshold p;
            kw_background_threshold := alpha_matting_background_threshold p;
            kw_erode_size := alpha_matting_erode_size p |}
  else None.

(** The response of the [return] statement of [remove_background]. *)
Definition png_response (p : Params) (output : list byte) : Response :=
  {| status := 200;
     media_type := "image/png";
     headers :=
       [("Content-Disposition",
         "attachment; filename=bg_removed_" ++ Py.format (filename (file p)));
        ("X-Original-Filename", Py.or_else (filename (file p)) "image");
        ("X-Model-Used", model p)];
     content := Bytes output |}.

Definition is_new_session {Session} (c : Call Session) : bool :=
  match c with NewSession _ => true | Remove _ _ _ => false end.

Definition is_remove {Session} (c : Call Session) : bool :=
  match c with NewSession _ => false | Remove _ _ _ => true end.

(** Some [remove] call of the journal carries exactly these three numbers. *)
Definition passes_numbers {Session} (fg bg er : Z) (cs : list (Call Session))
  : bool :=
  existsb
    (fun c =>
       match c with
       | Remove _ _ (Some kw) =>
           (kw_foreground_threshold kw =? fg)
           && (kw_background_threshold kw =? bg)
           && (kw_erode_size kw =? er)
       | _ => false
       end) cs.

(** Two requests that differ at most in the three numeric fields. *)
Definition same_but_numbers (r1 r2 : Request) : Prop :=
  x_api_key r1 = x_api_key r2 /\
  req_file r1 = req_file r2 /\
  req_model r1 = req_model r2 /\
  req_alpha_matting r1 = req_alpha_matting r2.

(** The collaborator raises [e] while the handler is processing [p]:
    either [new_session] does, or [remove] does on the session obtained. *)
Definition collaborator_raises {Session} (R : Rembg Session) (p : Params)
    (e : py_exception) : Prop :=
  new_session R (model p) = inl e \/
  exists s, new_session R (model p) = inr s /\
            remove R (file_bytes (file p)) s (matting_args p) = inl e.

(** How many times a collaborator function appears in a journal. *)
Definition times {Session} (f : Call Session -> bool) (cs : list (Call Session))
  : nat :=
  length (filter f cs).

(** First and last character of a string, if it has any. *)
Definition head_char (s : string) : option ascii :=
  match s with
  | EmptyString => None
  | String c _ => Some c
  end.

Fixpoint last_char (s : string) : option ascii :=
  match s with
  | EmptyString => None
  | String c EmptyString => Some c
  | String _ rest => last_char rest
  end.

(** Every character of [s] satisfies [f]. *)
Fixpoint all_chars (f : ascii -> bool) (s : string) : bool :=
  match s with
  | EmptyString => true
  | String c rest => f c && all_chars f rest
  end.

Definition is_comma (c : ascii) : bool := Ascii.eqb c ",".

(** An origin as the CORS middleware should receive it: not empty, no
    white space at either end, no comma inside. *)
Definition clean_origin (o : string) : Prop :=
  (exists a, head_char o = Some a /\ PyStr.isspace a = false) /\
  (exists b, last_char o = Some b /\ PyStr.isspace b = false) /\
  all_chars (fun c => negb (is_comma c)) o = true.

(** The sum of the counts of a dict, and how many results bear a label. *)
Definition total_count (d : LoadTest.Dict) : Z :=
  fold_right (fun kv acc => snd kv + acc) 0 d.

Definition labelled {Time} (label : string)
    (rs : list (LoadTest.Result Time)) : list (LoadTest.Result Time) :=
  filter (fun r => (LoadTest.error_label r =? label)%string) rs.

(** The loop of [LoadTest.count_errors], started from any dict. *)
Definition count_from {Time} (d : LoadTest.Dict)
    (rs : list (LoadTest.Result Time)) : LoadTest.Dict :=
  fold_left
    (fun error_counts req =>
       let error := LoadTest.error_label req in
       LoadTest.dict_set error_counts error
         (LoadTest.dict_get error_counts error 0 + 1))
    rs d.

(** * Properties *)

(** ** Python conventions *)

Lemma truthy_false_iff (o : option string) :
  Py.truthy o = false <-> o = None \/ o = Some "".
Proof.
  destruct o as [s|]; simpl.
  - rewrite negb_false_iff, String.eqb_eq. split.
    + intros ->. now right.
    + intros [H|H]; congruence.
  - split; auto.
Qed.

Lemma py_eqb_eq (a b : option string) : Py.eqb a b = true <-> a = b.
Proof.
  destruct a as [x|], b as [y|]; simpl; try (split; congruence).
  rewrite String.eqb_eq. split; congruence.
Qed.

Lemma not_an_image_spec (f : UploadFile) :
  not_an_image (content_type f) = negb (declares_image f).
Proof.
  unfold not_an_image, declares_image, Py.truthy, Py.startswith.
  destruct (content_type f) as [s|]; [|reflexivity].
  destruct s; reflexivity.
Qed.

(** ** The authenticator *)

Lemma verify_api_key_open (hdr key : option string) :
  Py.truthy key = false -> verify_api_key key hdr = inr true.
Proof. unfold verify_api_key. now intros ->. Qed.

Lemma verify_api_key_missing (hdr key : option string) :
  Py.truthy key = true -> Py.truthy hdr = false ->
  verify_api_key key hdr = inl (HTTPException 401 "X-API-Key header is required").
Proof. unfold verify_api_key. now intros -> ->. Qed.

Lemma verify_api_key_mismatch (hdr key : option string) :
  Py.truthy key = true -> Py.truthy hdr = true -> hdr <> key ->
  verify_api_key key hdr = inl (HTTPException 401 "Invalid API key").
Proof.
  unfold verify_api_key. intros -> -> Hne. simpl.
  destruct (Py.eqb hdr key) eqn:E; [|reflexivity].
  apply py_eqb_eq in E. contradiction.
Qed.

Lemma verify_api_key_match (key : option string) :
  verify_api_key key key = inr true.
Proof.
  unfold verify_api_key.
  destruct (Py.truthy key); simpl; [|reflexivity].
  now rewrite (proj2 (py_eqb_eq key key) eq_refl).
Qed.

(** The only exception [verify_api_key] raises is a 401. *)
Lemma verify_api_key_raises (key hdr : option string) (e : raised) :
  verify_api_key key hdr = inl e -> exists d, e = HTTPException 401 d.
Proof.
  unfold verify_api_key.
  destruct (Py.truthy key), (Py.truthy hdr), (Py.eqb hdr key); simpl;
    intros H; inversion H; eauto.
Qed.

(** C1. With [key] the configured secret and [hdr] the value of the
    X-API-Key header: access is allowed exactly when no secret is
    configured or [hdr] is the secret itself (equality of strings, so
    letter case counts); with a secret configured, an absent or empty
    header is refused with 401 "X-API-Key header is required", and a
    header that is present but different with 401 "Invalid API key". *)
Theorem verify_api_key_decides (key hdr : option string) :
  (allows key hdr <-> ~ secret_configured key \/ hdr = key) /\
  (secret_configured key -> hdr = None \/ hdr = Some "" ->
   verify_api_key key hdr =
     inl (HTTPException 401 "X-API-Key header is required")) /\
  (secret_configured key -> Py.truthy hdr = true -> hdr <> key ->
   verify_api_key key hdr = inl (HTTPException 401 "Invalid API key")).
Proof.
  unfold allows, secret_configured.
  split; [|split].
  - split.
    + intros Hok.
      destruct (Py.truthy key) eqn:Ek; [|left; discriminate].
      right.
      destruct (Py.truthy hdr) eqn:Eh.
      * destruct (Py.eqb hdr key) eqn:E; [now apply py_eqb_eq|].
        assert (hdr <> key) as Hne
          by (intros Heq; apply py_eqb_eq in Heq; congruence).
        rewrite (verify_api_key_mismatch _ _ Ek Eh Hne) in Hok. discriminate.
      * rewrite (verify_api_key_missing _ _ Ek Eh) in Hok. discriminate.
    + intros [Hno | ->].
      * apply verify_api_key_open.
        destruct (Py.truthy key); [now destruct Hno | reflexivity].
      * apply verify_api_key_match.
  - intros Hk Hh. apply verify_api_key_missing; [assumption|].
    now apply truthy_false_iff.
  - intros Hk Hh Hne. now apply verify_api_key_mismatch.
Qed.

(** ** One run of the handler *)

Section Runs.

Context {Session : Type}.
Variable env : Env Session.

(** Every path through [remove_background], started on a fresh journal:
    the value returned or the exception raised, with the collaborator
    calls made and the lines logged on the way. *)
Lemma remove_background_paths (p : Params) :
  remove_background env p fresh =
    if not_an_image (content_type (file p)) then
      (inl (HTTPException 400 "File must be an image"), fresh)
    else
      match rembg env with
      | None =>
          (inl (HTTPException 500
                  "rembg not installed. Please install with: pip install rembg"),
           fresh)
      | Some R =>
          let info := LogInfo ("Processing image with model: " ++ model p) in
          let failure e :=
            HTTPException 500 ("Error processing image: " ++ exn_str e) in
          let error e :=
            LogError ("Error processing image: " ++ exn_str e) in
          match new_session R (model p) with
          | inl e =>
              (inl (failure e),
               {| calls := [NewSession (model p)]; log := [error e] |})
          | inr s =>
              let call := Remove (file_bytes (file p)) s (matting_args p) in
              match remove R (file_bytes (file p)) s (matting_args p) with
              | inl e =>
                  (inl (failure e),
                   {| calls := [NewSession (model p); call];
                      log := [info; error e] |})
              | inr out =>
                  (inr (png_response p out),
                   {| calls := [NewSession (model p); call];
                      log := [info] |})
              end
          end
      end.
Proof.
  unfold remove_background, try_except, bind, import_rembg,
    call_new_session, call_remove, matting_args, png_response.
  destruct (not_an_image (content_type (file p))); [reflexivity|].
  cbn.
  destruct (rembg env) as [R|]; [|reflexivity].
  cbn.
  destruct (new_session R (model p)) as [e|s]; [reflexivity|].
  cbn.
  destruct (alpha_matting p); cbn;
    match goal with
    | |- context [remove R ?d ?s ?k] => destruct (remove R d s k)
    end; reflexivity.
Qed.

(** The alias hands every argument on under its own name. *)
Lemma remove_background_advanced_same (p : Params) :
  remove_background_advanced env p = remove_background env p.
Proof. unfold remove_background_advanced. now destruct p. Qed.

(** A refused request gets the dependency's exception as its response,
    and the handler has not started. *)
Lemma protected_refused (h : Params -> M Session Response) (r : Request)
    (code : Z) (detail : string) :
  verify_api_key (API_KEY env) (x_api_key r)
    = inl (HTTPException code detail) ->
  serve (protected env h r) = (http_exception_response code detail, fresh).
Proof.
  intros H. unfold serve, protected, bind. now rewrite H.
Qed.

Lemma protected_allowed (h : Params -> M Session Response) (r : Request) :
  allows (API_KEY env) (x_api_key r) ->
  serve (protected env h r) = serve (h (bind_params r)).
Proof.
  unfold allows. intros H. unfold serve, protected, bind. now rewrite H.
Qed.

End Runs.

(** Unfolds a request down to the paths of the handler. *)
Ltac run_request :=
  unfold post_bg_remove;
  repeat match goal with
    | H : allows _ _ |- _ => rewrite (protected_allowed _ _ _ H); clear H
    end;
  unfold serve;
  rewrite ?remove_background_paths.

Lemma verify_api_key_cases (key hdr : option string) :
  allows key hdr \/ exists d, verify_api_key key hdr = inl (HTTPException 401 d).
Proof.
  unfold allows, verify_api_key.
  destruct (Py.truthy key), (Py.truthy hdr), (Py.eqb hdr key); simpl; eauto.
Qed.

(** ** The endpoint [/bg/remove] *)

Section Endpoint.

Context {Session : Type}.
Variable env : Env Session.

(** A response with status 200 is the one built by the [return]
    statement of the handler. *)
Lemma success_is_png_response (r : Request) :
  status (fst (post_bg_remove env r)) = 200 ->
  exists out,
    fst (post_bg_remove env r) = png_response (bind_params r) out.
Proof.
  destruct (verify_api_key_cases (API_KEY env) (x_api_key r))
    as [Hok | [d Hd]].
  - run_request.
    destruct (not_an_image _); [discriminate|].
    destruct (rembg env) as [R|]; [|discriminate].
    cbv zeta.
    destruct (new_session R _) as [e|s]; [discriminate|].
    destruct (remove R _ s _) as [e|out]; [discriminate|].
    intros _. now exists out.
  - unfold post_bg_remove. rewrite (protected_refused _ _ _ _ _ Hd).
    discriminate.
Qed.

(** What the two filename headers of a successful response hold. *)
Lemma success_filename_headers (r : Request) :
  status (fst (post_bg_remove env r)) = 200 ->
  let hs := headers (fst (post_bg_remove env r)) in
  header "Content-Disposition" hs =
    Some ("attachment; filename=bg_removed_"
            ++ Py.format (filename (req_file r))) /\
  header "X-Original-Filename" hs =
    Some (Py.or_else (filename (req_file r)) "image").
Proof.
  intros H. destruct (success_is_png_response r H) as [out ->].
  split; reflexivity.
Qed.

(** With a non-empty filename both headers are as the specification has
    them. *)
Lemma success_headers_named (r : Request) (name : string) :
  status (fst (post_bg_remove env r)) = 200 ->
  filename (req_file r) = Some name -> name <> "" ->
  let hs := headers (fst (post_bg_remove env r)) in
  header "Content-Disposition" hs =
    Some ("attachment; filename=bg_removed_" ++ name) /\
  header "X-Original-Filename" hs = Some name.
Proof.
  intros H Hn Hne. destruct (success_filename_headers r H) as [Hcd Hof].
  cbv zeta. rewrite Hcd, Hof, Hn. simpl.
  destruct (String.eqb_spec name ""); [contradiction|]. now split.
Qed.

(** C5. An authenticated request whose upload does not declare a media
    type starting with [image/] (or declares none) is answered 400
    "File must be an image".  Only the declared type is consulted: the
    statement holds whatever bytes the upload carries. *)
Theorem non_image_upload_rejected (r : Request) :
  allows (API_KEY env) (x_api_key r) ->
  declares_image (req_file r) = false ->
  fst (post_bg_remove env r) =
    http_exception_response 400 "File must be an image".
Proof.
  intros Hok Hct. run_request.
  change (file (bind_params r)) with (req_file r).
  rewrite not_an_image_spec, Hct. reflexivity.
Qed.

(** C6. A successful call answers with media type [image/png], whatever
    media type the upload declared. *)
Theorem success_media_type_png (r : Request) :
  status (fst (post_bg_remove env r)) = 200 ->
  media_type (fst (post_bg_remove env r)) = "image/png".
Proof.
  intros H. destruct (success_is_png_response r H) as [out ->].
  reflexivity.
Qed.

(** C7. A successful call carries in X-Model-Used the model bound from
    the request: the value sent, or "u2net" when the field is left out. *)
Theorem success_model_used (r : Request) :
  status (fst (post_bg_remove env r)) = 200 ->
  let used := header "X-Model-Used" (headers (fst (post_bg_remove env r))) in
  used = Some (model (bind_params r)) /\
  (req_model r = None -> used = Some "u2net") /\
  (forall m, req_model r = Some m -> used = Some m).
Proof.
  intros H. destruct (success_is_png_response r H) as [out ->].
  cbv zeta. simpl.
  split; [reflexivity|]. split.
  - now intros ->.
  - now intros m ->.
Qed.

(** C8. [/bg/remove-advanced] answers every request as [/bg/remove]
    does, and leaves the same journal behind. *)
Theorem advanced_is_alias (r : Request) :
  post_bg_remove_advanced env r = post_bg_remove env r.
Proof.
  unfold post_bg_remove_advanced, post_bg_remove, protected.
  now rewrite remove_background_advanced_same.
Qed.

End Endpoint.


(** ** The collaborator seen from the endpoint *)

Section Collaborator.

Context {Session : Type}.
Variable env : Env Session.

(** C3 (amended). When alpha matting is enabled and the request reaches the
    [remove] call, the three numbers sent by the client are the ones the
    collaborator receives, whatever integers they are. *)
Theorem numbers_passed_unchanged_with_matting (r : Request)
    (R : Rembg Session) (s : Session) (fg bg er : Z) :
  allows (API_KEY env) (x_api_key r) ->
  declares_image (req_file r) = true ->
  rembg env = Some R ->
  new_session R (model (bind_params r)) = inr s ->
  req_alpha_matting r = Some true ->
  req_foreground_threshold r = Some fg ->
  req_background_threshold r = Some bg ->
  req_erode_size r = Some er ->
  calls (snd (post_bg_remove env r)) =
    [NewSession (model (bind_params r));
     Remove (file_bytes (req_file r)) s
       (Some {| kw_alpha_matting := true;
                kw_foreground_threshold := fg;
                kw_background_threshold := bg;
                kw_erode_size := er |})].
Proof.
  intros Hok Hct HR Hs Ham Hfg Hbg Her.
  assert (matting_args (bind_params r) =
            Some (mk_matting true fg bg er)) as Hkw.
  { unfold matting_args, bind_params; simpl.
    now rewrite Ham, Hfg, Hbg, Her. }
  run_request.
  change (file (bind_params r)) with (req_file r).
  rewrite not_an_image_spec, Hct, HR. cbv zeta. rewrite Hs, Hkw.
  now destruct (remove R _ s _).
Qed.

(** C4. When the collaborator raises [e] while an authenticated image
    upload is processed, the answer is a 500 whose detail is
    "Error processing image", then ": " and the text of [e]; each
    collaborator function has been called at most once. *)
Theorem collaborator_exception_is_500 (r : Request) (R : Rembg Session)
    (e : py_exception) :
  allows (API_KEY env) (x_api_key r) ->
  declares_image (req_file r) = true ->
  rembg env = Some R ->
  collaborator_raises R (bind_params r) e ->
  status (fst (post_bg_remove env r)) = 500 /\
  content (fst (post_bg_remove env r)) =
    JsonDetail ("Error processing image" ++ ": " ++ exn_str e) /\
  (times is_new_session (calls (snd (post_bg_remove env r))) <= 1)%nat /\
  (times is_remove (calls (snd (post_bg_remove env r))) <= 1)%nat.
Proof.
  intros Hok Hct HR Hraise. run_request.
  unfold collaborator_raises in Hraise.
  change (file (bind_params r)) with (req_file r) in *.
  rewrite not_an_image_spec, Hct, HR. cbv zeta.
  destruct Hraise as [Hns | (s & Hns & Hrm)]; rewrite Hns; [|rewrite Hrm];
    cbn; repeat split; auto.
Qed.

(** C9. With alpha matting off, two requests that differ only in the three
    numbers get the same response and leave the same journal: the
    collaborator is called with the same arguments. *)
Theorem numbers_unobservable_without_matting (r1 r2 : Request) :
  same_but_numbers r1 r2 ->
  alpha_matting (bind_params r1) = false ->
  alpha_matting (bind_params r2) = false ->
  post_bg_remove env r1 = post_bg_remove env r2.
Proof.
  intros (Hkey & Hfile & Hmodel & Ham) Hoff1 Hoff2.
  assert (matting_args (bind_params r1) = None) as Hkw1
    by (unfold matting_args; now rewrite Hoff1).
  assert (matting_args (bind_params r2) = None) as Hkw2
    by (unfold matting_args; now rewrite Hoff2).
  assert (model (bind_params r1) = model (bind_params r2)) as Hm
    by (simpl; now rewrite Hmodel).
  assert (forall out, png_response (bind_params r1) out =
                      png_response (bind_params r2) out) as Hresp
    by (intros out; unfold png_response; simpl; now rewrite Hfile, Hmodel).
  destruct (verify_api_key_cases (API_KEY env) (x_api_key r1))
    as [Hok | [d Hd]].
  - assert (allows (API_KEY env) (x_api_key r2)) as Hok2
      by now rewrite <- Hkey.
    run_request.
    change (file (bind_params r1)) with (req_file r1).
    change (file (bind_params r2)) with (req_file r2).
    rewrite Hkw1, Hkw2, <- Hm, <- Hfile.
    destruct (not_an_image _); [reflexivity|].
    destruct (rembg env) as [R|]; [|reflexivity].
    cbv zeta.
    destruct (new_session R _) as [e|s]; [reflexivity|].
    destruct (remove R _ s None) as [e|out]; [reflexivity|].
    now rewrite Hresp.
  - unfold post_bg_remove.
    rewrite (protected_refused _ _ _ _ _ Hd).
    rewrite Hkey in Hd.
    now rewrite (protected_refused _ _ _ _ _ Hd).
Qed.

(** C10. A request answered 401 or 400 has left the journal empty: no
    session was created and [remove] was not called. *)
Theorem rejected_before_collaborator (r : Request) :
  status (fst (post_bg_remove env r)) = 401 \/
  status (fst (post_bg_remove env r)) = 400 ->
  calls (snd (post_bg_remove env r)) = [].
Proof.
  destruct (verify_api_key_cases (API_KEY env) (x_api_key r))
    as [Hok | [d Hd]].
  - run_request.
    destruct (not_an_image _); [reflexivity|].
    destruct (rembg env) as [R|]; [|reflexivity].
    cbv zeta.
    destruct (new_session R _) as [e|s];
      [intros [H|H]; discriminate H|].
    destruct (remove R _ s _) as [e|out]; intros [H|H]; discriminate H.
  - unfold post_bg_remove. now rewrite (protected_refused _ _ _ _ _ Hd).
Qed.

(** The two rejections, from their causes. *)
Lemma refused_is_401 (r : Request) :
  ~ allows (API_KEY env) (x_api_key r) ->
  status (fst (post_bg_remove env r)) = 401.
Proof.
  intros Hno.
  destruct (verify_api_key_cases (API_KEY env) (x_api_key r))
    as [Hok | [d Hd]]; [contradiction|].
  unfold post_bg_remove. now rewrite (protected_refused _ _ _ _ _ Hd).
Qed.

End Collaborator.


(** * Start-up code *)

(** ** [strip] and [split] *)

Lemma last_char_none (s : string) : last_char s = None -> s = EmptyString.
Proof.
  induction s as [|c rest IH]; [reflexivity|].
  simpl. destruct rest; [discriminate|].
  intros H. specialize (IH H). discriminate.
Qed.

Lemma lstrip_head (s : string) (a : ascii) :
  head_char (PyStr.lstrip s) = Some a -> PyStr.isspace a = false.
Proof.
  induction s as [|c rest IH]; simpl; [discriminate|].
  destruct (PyStr.isspace c) eqn:E; [exact IH|].
  simpl. intros H. now inversion H; subst.
Qed.

Lemma rstrip_head (s : string) (a : ascii) :
  head_char s = Some a -> PyStr.isspace a = false ->
  head_char (PyStr.rstrip s) = Some a.
Proof.
  destruct s as [|c rest]; simpl; [discriminate|].
  intros H Ha. inversion H; subst.
  destruct (PyStr.rstrip rest); [now rewrite Ha|reflexivity].
Qed.

Lemma rstrip_last (s : string) (b : ascii) :
  last_char (PyStr.rstrip s) = Some b -> PyStr.isspace b = false.
Proof.
  induction s as [|c rest IH]; simpl; [discriminate|].
  destruct (PyStr.rstrip rest) as [|k kept] eqn:E.
  - destruct (PyStr.isspace c) eqn:Ec; simpl; [discriminate|].
    intros H. now inversion H; subst.
  - intros H. apply IH. exact H.
Qed.




Lemma lstrip_keeps (f : ascii -> bool) (s : string) :
  all_chars f s = true -> all_chars f (PyStr.lstrip s) = true.
Proof.
  induction s as [|c rest IH]; simpl; [reflexivity|].
  intros H. apply andb_true_iff in H. destruct H as [Hc Hr].
  destruct (PyStr.isspace c); [now apply IH|].
  simpl. now rewrite Hc, Hr.
Qed.

Lemma rstrip_keeps (f : ascii -> bool) (s : string) :
  all_chars f s = true -> all_chars f (PyStr.rstrip s) = true.
Proof.
  induction s as [|c rest IH]; simpl; [reflexivity|].
  intros H. apply andb_true_iff in H. destruct H as [Hc Hr].
  specialize (IH Hr).
  destruct (PyStr.rstrip rest) as [|k kept].
  - destruct (PyStr.isspace c); simpl; [reflexivity|]. now rewrite Hc.
  - simpl in *. now rewrite Hc, IH.
Qed.

Lemma lstrip_fixed (s : string) (a : ascii) :
  head_char s = Some a -> PyStr.isspace a = false -> PyStr.lstrip s = s.
Proof.
  destruct s as [|c rest]; simpl; [discriminate|].
  intros H Ha. inversion H; subst. now rewrite Ha.
Qed.

Lemma rstrip_fixed (s : string) (b : ascii) :
  last_char s = Some b -> PyStr.isspace b = false -> PyStr.rstrip s = s.
Proof.
  induction s as [|c rest IH]; simpl; [discriminate|].
  destruct rest as [|d rest'].
  - intros H Hb. inversion H; subst. simpl. now rewrite Hb.
  - intros H Hb. rewrite (IH H Hb). reflexivity.
Qed.


Lemma split_pieces (sep : ascii) (s : string) :
  Forall (fun p => all_chars (fun c => negb (Ascii.eqb c sep)) p = true)
    (PyStr.split sep s).
Proof.
  induction s as [|c rest IH]; simpl.
  - now constructor.
  - destruct (Ascii.eqb c sep) eqn:E.
    + now constructor.
    + destruct (PyStr.split sep rest) as [|p ps].
      * constructor; [simpl; now rewrite E | constructor].
      * inversion IH; subst. constructor; [|assumption].
        simpl. rewrite E. simpl. assumption.
Qed.

Lemma split_one (sep : ascii) (s : string) :
  all_chars (fun c => negb (Ascii.eqb c sep)) s = true ->
  PyStr.split sep s = [s].
Proof.
  induction s as [|c rest IH]; simpl; [reflexivity|].
  intros H. apply andb_true_iff in H. destruct H as [Hc Hr].
  apply negb_true_iff in Hc. rewrite Hc, (IH Hr). reflexivity.
Qed.

Lemma split_append (sep : ascii) (s rest : string) :
  all_chars (fun c => negb (Ascii.eqb c sep)) s = true ->
  PyStr.split sep (s ++ String sep rest) = s :: PyStr.split sep rest.
Proof.
  induction s as [|c s' IH]; simpl.
  - intros _. now rewrite Ascii.eqb_refl.
  - intros H. apply andb_true_iff in H. destruct H as [Hc Hr].
    apply negb_true_iff in Hc. rewrite Hc, (IH Hr). reflexivity.
Qed.

Lemma split_concat (sep : ascii) (pieces : list string) :
  pieces <> [] ->
  Forall (fun p => all_chars (fun c => negb (Ascii.eqb c sep)) p = true)
    pieces ->
  PyStr.split sep (String.concat (String sep EmptyString) pieces) = pieces.
Proof.
  induction pieces as [|p ps IH]; [congruence|].
  intros _ H. inversion H as [|? ? Hp Hps]; subst.
  destruct ps as [|q qs].
  - simpl. now apply split_one.
  - change (String.concat (String sep EmptyString) (p :: q :: qs))
      with (p ++ String sep
              (String.concat (String sep EmptyString) (q :: qs))).
    rewrite (split_append _ _ _ Hp), IH; [reflexivity|discriminate|assumption].
Qed.



(** ** [ALLOWED_ORIGINS] *)

(** X1. Whatever the variable holds, every origin handed to the CORS
    middleware is non-empty, starts and ends with a character that is not
    white space, and contains no comma. *)
Theorem allowed_origins_clean (value : option string) :
  Forall clean_origin (parse_allowed_origins value).
Proof.
  unfold parse_allowed_origins.
  set (raw := match value with Some s => s | None => "*" end).
  assert (Forall (fun p => all_chars (fun c => negb (is_comma c)) p = true)
            (PyStr.split "," raw)) as Hp by apply split_pieces.
  induction (PyStr.split "," raw) as [|p ps IH]; simpl; [constructor|].
  inversion Hp as [|? ? Hc Hps]; subst.
  destruct (PyStr.strip p =? "")%string eqn:E; simpl; [now apply IH|].
  constructor; [|now apply IH].
  apply String.eqb_neq in E.
  unfold PyStr.strip in *.
  destruct (PyStr.lstrip p) as [|a r] eqn:El; [now elim E|].
  assert (PyStr.isspace a = false) as Ha
    by (apply (lstrip_head p); now rewrite El).
  repeat split.
  - exists a. split; [|exact Ha]. now apply rstrip_head.
  - destruct (last_char (PyStr.rstrip (String a r))) as [b|] eqn:Eb.
    + exists b. split; [reflexivity|]. now apply rstrip_last in Eb.
    + apply last_char_none in Eb. contradiction.
  - apply rstrip_keeps. rewrite <- El. now apply lstrip_keeps.
Qed.

(** X2. A list of clean origins written with commas between them is read
    back as that list, in that order. *)
Theorem allowed_origins_round_trip (origins : list string) :
  Forall clean_origin origins ->
  parse_allowed_origins (Some (String.concat "," origins)) = origins.
Proof.
  intros Hclean. unfold parse_allowed_origins.
  destruct origins as [|o os]; [reflexivity|].
  rewrite split_concat; [|discriminate|].
  - induction Hclean as [|x xs Hx Hxs IH]; [reflexivity|].
    destruct Hx as ((a & Ha & Hsa) & (b & Hb & Hsb) & _).
    assert (PyStr.strip x = x) as Hfix.
    { unfold PyStr.strip.
      rewrite (lstrip_fixed _ _ Ha Hsa). exact (rstrip_fixed _ _ Hb Hsb). }
    simpl. rewrite Hfix.
    destruct x as [|c x']; [discriminate|].
    simpl. rewrite Hfix. f_equal. exact IH.
  - eapply Forall_impl; [|exact Hclean].
    intros x (_ & _ & Hx). exact Hx.
Qed.


(** X4. The warning written at start-up is accurate: it is written exactly
    when the authenticator lets every request through, whatever its
    X-API-Key header. *)
Theorem startup_warning_accurate (key : option string) :
  startup_warning key <> None <-> (forall hdr, allows key hdr).
Proof.
  unfold startup_warning, allows. split.
  - intros H hdr. apply verify_api_key_open.
    destruct (Py.truthy key); [now elim H | reflexivity].
  - intros H. specialize (H None).
    unfold verify_api_key in H.
    destruct (Py.truthy key); simpl in *; [discriminate|discriminate].
Qed.

(** * The service as a whole *)

Section Service.

Context {Session : Type}.
Variable env : Env Session.

Lemma advanced_route_same (r : Request) :
  post_bg_remove_advanced env r = post_bg_remove env r.
Proof.
  unfold post_bg_remove_advanced, post_bg_remove, protected.
  now rewrite remove_background_advanced_same.
Qed.

(** An allowed request is answered 200, 400 or 500. *)
Lemma allowed_status (r : Request) :
  allows (API_KEY env) (x_api_key r) ->
  status (fst (post_bg_remove env r)) <> 401.
Proof.
  intros Hok. run_request.
  destruct (not_an_image _); [discriminate|].
  destruct (rembg env) as [R|]; [|discriminate].
  cbv zeta.
  destruct (new_session R _) as [e|s]; [discriminate|].
  destruct (remove R _ s _); discriminate.
Qed.

Lemma refused_response (r : Request) :
  ~ allows (API_KEY env) (x_api_key r) ->
  exists d,
    verify_api_key (API_KEY env) (x_api_key r) = inl (HTTPException 401 d) /\
    post_bg_remove env r = (http_exception_response 401 d, fresh).
Proof.
  intros Hno.
  destruct (verify_api_key_cases (API_KEY env) (x_api_key r))
    as [Hok | [d Hd]]; [contradiction|].
  exists d. split; [exact Hd|].
  unfold post_bg_remove. now rewrite (protected_refused _ _ _ _ _ Hd).
Qed.

(** X5. A request is answered 401 exactly when its route is one of the
    three declared with the API-key dependency and the authenticator
    refuses its header; [/] and [/health] never answer 401. *)
Theorem unauthorized_iff (q : Routed) :
  reply_status (fst (app env q)) = 401 <->
  protected_route q = true /\ ~ allows (API_KEY env) (routed_key q).
Proof.
  destruct q as [k|k|k|r|r]; simpl.
  - split; [discriminate | intros [H _]; discriminate].
  - split; [discriminate | intros [H _]; discriminate].
  - unfold get_models.
    destruct (verify_api_key_cases (API_KEY env) k) as [Hok | [d Hd]].
    + unfold allows in Hok. rewrite Hok. simpl.
      split; [discriminate | intros [_ H]; now elim H].
    + rewrite Hd. simpl. split; [|reflexivity].
      intros _. split; [reflexivity|]. unfold allows. now rewrite Hd.
  - destruct (post_bg_remove env r) as [resp w] eqn:E. simpl.
    replace resp with (fst (post_bg_remove env r)) by now rewrite E.
    split.
    + intros H. split; [reflexivity|].
      intros Hok. now apply (allowed_status r Hok).
    + intros [_ Hno]. destruct (refused_response r Hno) as (d & _ & ->).
      reflexivity.
  - rewrite advanced_route_same.
    destruct (post_bg_remove env r) as [resp w] eqn:E. simpl.
    replace resp with (fst (post_bg_remove env r)) by now rewrite E.
    split.
    + intros H. split; [reflexivity|].
      intros Hok. now apply (allowed_status r Hok).
    + intros [_ Hno]. destruct (refused_response r Hno) as (d & _ & ->).
      reflexivity.
Qed.

(** X6. [GET /models] and [POST /bg/remove] stand behind the same gate: a
    header refused on one is refused on the other with the same status and
    the same detail, and a header allowed on [/models] gets the list of
    models whether or not rembg can be imported. *)
Theorem models_same_gate (r : Request) :
  (~ allows (API_KEY env) (x_api_key r) ->
   exists d,
     fst (app env (GetModels (x_api_key r))) =
       JsonReply 401 (JObject [("detail", JString d)]) /\
     fst (app env (PostBgRemove r)) =
       ImageReply (http_exception_response 401 d)) /\
  (allows (API_KEY env) (x_api_key r) ->
   fst (app env (GetModels (x_api_key r))) =
     JsonReply 200 list_available_models).
Proof.
  split.
  - intros Hno. destruct (refused_response r Hno) as (d & Hd & Hr).
    exists d. simpl. unfold get_models. rewrite Hd, Hr. now split.
  - unfold allows. intros Hok. simpl. unfold get_models. now rewrite Hok.
Qed.

(** X7. The collaborator is invoked exactly when the request goes to one
    of the two image routes, is allowed, declares an image, and rembg can
    be imported. *)
Theorem collaborator_called_iff (q : Routed) :
  calls (snd (app env q)) <> [] <->
  exists r,
    (q = PostBgRemove r \/ q = PostBgRemoveAdvanced r) /\
    allows (API_KEY env) (x_api_key r) /\
    declares_image (req_file r) = true /\
    rembg env <> None.
Proof.
  assert (forall r,
    calls (snd (post_bg_remove env r)) <> [] <->
    allows (API_KEY env) (x_api_key r) /\
    declares_image (req_file r) = true /\ rembg env <> None) as Hplain.
  { intros r.
    destruct (verify_api_key_cases (API_KEY env) (x_api_key r))
      as [Hok | [d Hd]].
    - assert (allows (API_KEY env) (x_api_key r)) as Hok' by exact Hok.
      run_request.
      change (file (bind_params r)) with (req_file r).
      rewrite not_an_image_spec.
      destruct (declares_image (req_file r)); simpl.
      + destruct (rembg env) as [R|]; simpl.
        * split; [intros _; repeat split; auto; discriminate|].
          intros _.
          destruct (new_session R _) as [e|s]; [discriminate|].
          destruct (remove R _ s _); discriminate.
        * split; [intros H; now elim H | intros (_ & _ & H); now elim H].
      + split; [intros H; now elim H | intros (_ & H & _); discriminate].
    - unfold post_bg_remove. rewrite (protected_refused _ _ _ _ _ Hd).
      simpl. split; [intros H; now elim H|].
      intros (Hok & _). unfold allows in Hok. congruence. }
  destruct q as [k|k|k|r|r]; simpl;
    try (split; [intros H; now elim H
                | intros (r & [Hq|Hq] & _); discriminate]).
  - destruct (post_bg_remove env r) as [resp w] eqn:E. simpl.
    replace w with (snd (post_bg_remove env r)) by now rewrite E.
    rewrite Hplain. split.
    + intros H. exists r. split; [now left | exact H].
    + intros (r' & [Hq|Hq] & H); inversion Hq; subst; exact H.
  - rewrite advanced_route_same.
    destruct (post_bg_remove env r) as [resp w] eqn:E. simpl.
    replace w with (snd (post_bg_remove env r)) by now rewrite E.
    rewrite Hplain. split.
    + intros H. exists r. split; [now right | exact H].
    + intros (r' & [Hq|Hq] & H); inversion Hq; subst; exact H.
Qed.

End Service.

(** * More on [remove_background] *)

Section Handler.

Context {Session : Type}.
Variable env : Env Session.

(** X8. When rembg cannot be imported, an allowed image upload is answered
    500 with the installation hint; nothing is logged and nothing is
    called. *)
Theorem rembg_missing (r : Request) :
  allows (API_KEY env) (x_api_key r) ->
  declares_image (req_file r) = true ->
  rembg env = None ->
  post_bg_remove env r =
    (http_exception_response 500
       "rembg not installed. Please install with: pip install rembg",
     fresh).
Proof.
  intros Hok Hct Hno. run_request.
  change (file (bind_params r)) with (req_file r).
  now rewrite not_an_image_spec, Hct, Hno.
Qed.

(** X9. A 200 is the result of exactly one [new_session] call with the
    bound model name followed by exactly one [remove] call on the uploaded
    bytes and that session; the body is what [remove] returned, and the
    only line logged is the one naming the model. *)
Theorem success_delegates_once (r : Request) :
  status (fst (post_bg_remove env r)) = 200 ->
  exists R s out,
    rembg env = Some R /\
    new_session R (model (bind_params r)) = inr s /\
    remove R (file_bytes (req_file r)) s (matting_args (bind_params r))
      = inr out /\
    content (fst (post_bg_remove env r)) = Bytes out /\
    calls (snd (post_bg_remove env r)) =
      [NewSession (model (bind_params r));
       Remove (file_bytes (req_file r)) s (matting_args (bind_params r))] /\
    log (snd (post_bg_remove env r)) =
      [LogInfo ("Processing image with model: " ++ model (bind_params r))].
Proof.
  destruct (verify_api_key_cases (API_KEY env) (x_api_key r))
    as [Hok | [d Hd]].
  - run_request.
    change (file (bind_params r)) with (req_file r).
    destruct (not_an_image _); [discriminate|].
    destruct (rembg env) as [R|]; [|discriminate].
    cbv zeta.
    destruct (new_session R _) as [e|s] eqn:Es; [discriminate|].
    destruct (remove R _ s _) as [e|out] eqn:Er; [discriminate|].
    intros _. exists R, s, out. repeat split; assumption.
  - unfold post_bg_remove. rewrite (protected_refused _ _ _ _ _ Hd).
    discriminate.
Qed.

(** X10. Whatever is logged as an error is what the client is told: an
    error line in the log means a 500 response whose detail is the text
    of that line. *)
Theorem logged_error_is_detail (r : Request) (msg : string) :
  In (LogError msg) (log (snd (post_bg_remove env r))) ->
  fst (post_bg_remove env r) = http_exception_response 500 msg.
Proof.
  destruct (verify_api_key_cases (API_KEY env) (x_api_key r))
    as [Hok | [d Hd]].
  - run_request.
    destruct (not_an_image _); [intros []|].
    destruct (rembg env) as [R|]; [|intros []].
    cbv zeta.
    destruct (new_session R _) as [e|s].
    + simpl. intros [H|[]]. now inversion H.
    + destruct (remove R _ s _) as [e|out]; simpl.
      * intros [H|[H|[]]]; [discriminate H|]. now inversion H.
      * intros [H|[]]. discriminate H.
  - unfold post_bg_remove. rewrite (protected_refused _ _ _ _ _ Hd).
    intros [].
Qed.


(** The handler itself, from any journal: what it raises is an
    [HTTPException]. *)
Lemma handler_raises_http (p : Params) (w : World Session) (e : raised) :
  fst (remove_background env p w) = inl e ->
  exists code d, e = HTTPException code d.
Proof.
  unfold remove_background, try_except, bind, import_rembg,
    call_new_session, call_remove.
  destruct (not_an_image (content_type (file p))); cbn.
  - intros H. inversion H. eauto.
  - destruct (rembg env) as [R|]; cbn; [|intros H; inversion H; eauto].
    destruct (new_session R (model p)) as [x|s]; cbn;
      [intros H; inversion H; eauto|].
    destruct (alpha_matting p); cbn;
      match goal with
      | |- context [remove R ?d ?s ?k] => destruct (remove R d s k)
      end; cbn; intros H; inversion H; eauto.
Qed.

(** X12. A refused request is answered 401 before anything else happens:
    the upload is not looked at (a non-image still gets 401, not 400),
    nothing is logged, nothing is called, and the detail is one of the
    two messages of the authenticator. *)
Theorem refusal_comes_first (r : Request) :
  ~ allows (API_KEY env) (x_api_key r) ->
  exists d,
    post_bg_remove env r = (http_exception_response 401 d, fresh) /\
    (d = "X-API-Key header is required" \/ d = "Invalid API key").
Proof.
  intros Hno. unfold allows in Hno.
  unfold post_bg_remove, serve, protected, bind.
  unfold verify_api_key in *.
  destruct (Py.truthy (API_KEY env)); simpl in *; [|now elim Hno].
  destruct (Py.truthy (x_api_key r)); simpl in *; [|eauto].
  destruct (Py.eqb (x_api_key r) (API_KEY env)); simpl in *;
    [now elim Hno | eauto].
Qed.

Lemma image_prefix_accepted (subtype : string) :
  not_an_image (Some ("image/" ++ subtype)) = false.
Proof.
  unfold not_an_image, Py.startswith. cbn. now destruct subtype.
Qed.

(** X13. The check of the media type is a prefix test and nothing more:
    an allowed upload declaring [image/] followed by anything, even by
    nothing, is never answered 400. *)
Theorem image_prefix_suffices (r : Request) (subtype : string) :
  allows (API_KEY env) (x_api_key r) ->
  content_type (req_file r) = Some ("image/" ++ subtype) ->
  status (fst (post_bg_remove env r)) = 200 \/
  status (fst (post_bg_remove env r)) = 500.
Proof.
  intros Hok Hct. run_request.
  change (file (bind_params r)) with (req_file r).
  rewrite Hct, image_prefix_accepted.
  destruct (rembg env) as [R|]; [|now right].
  cbv zeta.
  destruct (new_session R _) as [e|s]; [now right|].
  destruct (remove R _ s _); [now right | now left].
Qed.

(** X17. The model name is handed to [new_session] as it was sent, with
    no check against the names that [/models] lists: for an allowed image
    upload, with rembg importable, the first collaborator call is
    [new_session] on exactly that name. *)
Theorem model_name_verbatim (r : Request) (name : string) :
  allows (API_KEY env) (x_api_key r) ->
  declares_image (req_file r) = true ->
  rembg env <> None ->
  req_model r = Some name ->
  exists rest, calls (snd (post_bg_remove env r)) = NewSession name :: rest.
Proof.
  intros Hok Hct Hin Hm. run_request.
  change (file (bind_params r)) with (req_file r).
  rewrite not_an_image_spec, Hct.
  assert (model (bind_params r) = name) as -> by (simpl; now rewrite Hm).
  destruct (rembg env) as [R|]; [|now elim Hin].
  cbv zeta.
  destruct (new_session R name) as [e|s]; [now eexists|].
  destruct (remove R _ s _); now eexists.
Qed.

End Handler.

(** * The analysis of [load_test.py] *)

Section Analysis.

Import LoadTest.

Context {Time : Type}.

Lemma dict_get_set_same (d : Dict) (k : string) (v default : Z) :
  dict_get (dict_set d k v) k default = v.
Proof.
  induction d as [|[k' v'] rest IH]; simpl.
  - now rewrite String.eqb_refl.
  - destruct (k' =? k)%string eqn:E; simpl; now rewrite E.
Qed.

Lemma dict_get_set_other (d : Dict) (k k' : string) (v default : Z) :
  k' <> k ->
  dict_get (dict_set d k v) k' default = dict_get d k' default.
Proof.
  intros Hne. induction d as [|[k0 v0] rest IH]; simpl.
  - apply not_eq_sym in Hne. apply String.eqb_neq in Hne. now rewrite Hne.
  - destruct (k0 =? k)%string eqn:E; simpl.
    + apply String.eqb_eq in E. subst k0.
      apply not_eq_sym in Hne. apply String.eqb_neq in Hne. now rewrite Hne.
    + now rewrite IH.
Qed.

Lemma total_count_bump (d : Dict) (k : string) :
  total_count (dict_set d k (dict_get d k 0 + 1)) = total_count d + 1.
Proof.
  unfold total_count.
  induction d as [|[k' v'] rest IH]; simpl; [reflexivity|].
  destruct (k' =? k)%string; simpl; lia.
Qed.

Lemma dict_set_keys (d : Dict) (k x : string) (v : Z) :
  In x (map fst (dict_set d k v)) <-> In x (map fst d) \/ x = k.
Proof.
  induction d as [|[k' v'] rest IH]; simpl.
  - intuition.
  - destruct (k' =? k)%string eqn:E; simpl.
    + apply String.eqb_eq in E. subst. intuition.
    + rewrite IH. intuition.
Qed.

Lemma dict_set_nodup (d : Dict) (k : string) (v : Z) :
  NoDup (map fst d) -> NoDup (map fst (dict_set d k v)).
Proof.
  induction d as [|[k' v'] rest IH]; simpl; intros H.
  - constructor; [intros []|constructor].
  - inversion H as [|? ? Hnot Hrest]; subst.
    destruct (k' =? k)%string eqn:E; simpl.
    + now constructor.
    + constructor; [|now apply IH].
      rewrite dict_set_keys. intros [Hin|Heq]; [contradiction|].
      subst. now rewrite String.eqb_refl in E.
Qed.

Lemma count_from_total (rs : list (Result Time)) (d : Dict) :
  total_count (count_from d rs) = total_count d + Z.of_nat (length rs).
Proof.
  revert d. induction rs as [|r rs IH]; intros d; simpl.
  - lia.
  - unfold count_from in *. simpl. rewrite IH, total_count_bump. lia.
Qed.

Lemma count_from_get (rs : list (Result Time)) (d : Dict) (label : string) :
  dict_get (count_from d rs) label 0 =
  dict_get d label 0 + Z.of_nat (length (labelled label rs)).
Proof.
  revert d. induction rs as [|r rs IH]; intros d.
  - simpl. lia.
  - unfold count_from in *. simpl. rewrite IH.
    destruct (error_label r =? label)%string eqn:E.
    + apply String.eqb_eq in E. subst label.
      rewrite dict_get_set_same. simpl length. lia.
    + apply String.eqb_neq in E.
      rewrite dict_get_set_other by congruence. lia.
Qed.

Lemma count_from_nodup (rs : list (Result Time)) (d : Dict) :
  NoDup (map fst d) -> NoDup (map fst (count_from d rs)).
Proof.
  revert d. induction rs as [|r rs IH]; intros d H; [exact H|].
  unfold count_from in *. simpl. apply IH. now apply dict_set_nodup.
Qed.

(** X14. Among the results that [make_request] builds, the successful ones
    are exactly those with status 200 (any other status, and any
    exception, counts as a failure), and every result is counted once. *)
Theorem results_split (outcomes : list (Time * (string + Z * list byte))) :
  let results := map (fun o => make_request (fst o) (snd o)) outcomes in
  successful_requests results =
    filter (fun r => status_code r =? 200) results /\
  failed_requests results =
    filter (fun r => negb (status_code r =? 200)) results /\
  (length (successful_requests results) + length (failed_requests results)
   = length outcomes)%nat.
Proof.
  cbv zeta. unfold successful_requests, failed_requests.
  induction outcomes as [|[t [e|[code body]]] rest (IH1 & IH2 & IH3)];
    simpl.
  - repeat split.
  - rewrite IH1, IH2 in *. simpl. repeat split. lia.
  - rewrite IH1, IH2 in *.
    destruct (code =? 200); simpl; repeat split; lia.
Qed.

(** X15. The counts reported per error add up to the number of failed
    requests, and no error is listed twice. *)
Theorem error_counts_total (failed : list (Result Time)) :
  total_count (count_errors failed) = Z.of_nat (length failed) /\
  NoDup (map fst (count_errors failed)).
Proof.
  split.
  - exact (count_from_total failed []).
  - apply (count_from_nodup failed []). constructor.
Qed.

(** X16. The count reported for an error is the number of failed requests
    bearing it: the text of the exception, or [HTTP] and the status. *)
Theorem error_counts_exact (failed : list (Result Time)) (label : string) :
  dict_get (count_errors failed) label 0 =
  Z.of_nat (length (labelled label failed)).
Proof. exact (count_from_get failed [] label). Qed.

End Analysis.

(** * Concrete runs *)

Import Samples.

Lemma verify_api_key_decides_witness :
  verify_api_key (Some "test-api-key-12345") (Some "Test-api-key-12345")
    = inl (HTTPException 401 "Invalid API key").
Proof.
  apply (proj2 (proj2 (verify_api_key_decides
                         (Some "test-api-key-12345")
                         (Some "Test-api-key-12345")))).
  - reflexivity.
  - reflexivity.
  - discriminate.
Defined.

(** C2. On a successful call whose upload has an empty filename the
    Content-Disposition header names the file [bg_removed_], not
    [bg_removed_image], while X-Original-Filename is [image]: the
    fallback written for the second header is missing from the first. *)
Theorem content_disposition_empty_filename :
  let resp :=
    fst (post_bg_remove env_ok (plain (Some "test-api-key-12345") unnamed_png))
  in
  status resp = 200 /\
  header "Content-Disposition" (headers resp)
    = Some "attachment; filename=bg_removed_" /\
  header "X-Original-Filename" (headers resp) = Some "image".
Proof. repeat split. Qed.

(** With no filename at all, the f-string writes [None]. *)
Lemma content_disposition_no_filename :
  let resp :=
    fst (post_bg_remove env_ok (plain (Some "test-api-key-12345") nameless_png))
  in
  status resp = 200 /\
  header "Content-Disposition" (headers resp)
    = Some "attachment; filename=bg_removed_None" /\
  header "X-Original-Filename" (headers resp) = Some "image".
Proof. repeat split. Qed.

(** C3, as first stated, fails: with alpha matting off the request is
    served, and no [remove] call carries the three numbers it sent. *)
Lemma numbers_dropped_without_matting :
  let r := with_thresholds false (-1) 2000 3 in
  status (fst (post_bg_remove env_ok r)) = 200 /\
  calls (snd (post_bg_remove env_ok r))
    = [NewSession "silueta"; Remove png_in 7%nat None] /\
  passes_numbers (-1) 2000 3 (calls (snd (post_bg_remove env_ok r))) = false.
Proof. repeat split. Qed.

Lemma numbers_passed_unchanged_with_matting_witness :
  calls (snd (post_bg_remove env_ok (with_thresholds true (-1) 2000 3))) =
    [NewSession "silueta";
     Remove png_in 7%nat (Some (mk_matting true (-1) 2000 3))].
Proof.
  apply (numbers_passed_unchanged_with_matting env_ok
           (with_thresholds true (-1) 2000 3) rembg_ok 7%nat (-1) 2000 3);
    reflexivity.
Defined.

Lemma collaborator_exception_is_500_witness :
  let r := with_thresholds true 240 10 10 in
  status (fst (post_bg_remove env_failing r)) = 500 /\
  content (fst (post_bg_remove env_failing r)) =
    JsonDetail "Error processing image: Processing failed" /\
  (times is_new_session (calls (snd (post_bg_remove env_failing r))) <= 1)%nat /\
  (times is_remove (calls (snd (post_bg_remove env_failing r))) <= 1)%nat.
Proof.
  apply (collaborator_exception_is_500 env_failing
           (with_thresholds true 240 10 10) rembg_failing
           (mk_exn OtherError "Processing failed")).
  - reflexivity.
  - reflexivity.
  - reflexivity.
  - right. exists 7%nat. split; reflexivity.
Defined.

Lemma non_image_upload_rejected_witness :
  fst (post_bg_remove env_ok (plain (Some "test-api-key-12345") test_txt)) =
    http_exception_response 400 "File must be an image".
Proof.
  apply (non_image_upload_rejected env_ok
           (plain (Some "test-api-key-12345") test_txt));
    reflexivity.
Defined.

Lemma success_media_type_png_witness :
  media_type
    (fst (post_bg_remove env_ok (plain (Some "test-api-key-12345") test_png)))
  = "image/png".
Proof.
  apply (success_media_type_png env_ok
           (plain (Some "test-api-key-12345") test_png)).
  reflexivity.
Defined.

Lemma success_model_used_witness :
  header "X-Model-Used"
    (headers
       (fst (post_bg_remove env_ok
               (plain (Some "test-api-key-12345") test_png))))
  = Some "u2net".
Proof.
  apply (proj1 (proj2 (success_model_used env_ok
                         (plain (Some "test-api-key-12345") test_png)
                         eq_refl))).
  reflexivity.
Defined.

Lemma numbers_unobservable_without_matting_witness :
  post_bg_remove env_ok (with_thresholds false (-1) 2000 3) =
  post_bg_remove env_ok (with_thresholds false 240 10 10).
Proof.
  apply (numbers_unobservable_without_matting env_ok
           (with_thresholds false (-1) 2000 3)
           (with_thresholds false 240 10 10)).
  - repeat split.
  - reflexivity.
  - reflexivity.
Defined.

Lemma rejected_before_collaborator_witness :
  calls (snd (post_bg_remove env_ok (plain None test_png))) = [].
Proof.
  apply (rejected_before_collaborator env_ok (plain None test_png)).
  left. reflexivity.
Defined.

(** ** Runs for the start-up code, the routes and the load test *)

Import MoreSamples.

Lemma allowed_origins_round_trip_witness :
  parse_allowed_origins (Some "http://localhost:3000,http://localhost:3001")
  = ["http://localhost:3000"; "http://localhost:3001"].
Proof.
  apply (allowed_origins_round_trip
           ["http://localhost:3000"; "http://localhost:3001"]).
  repeat constructor; eexists; split; reflexivity.
Defined.


Lemma startup_warning_accurate_witness :
  allows (Some "") (Some "any-key").
Proof.
  apply (proj1 (startup_warning_accurate (Some ""))). discriminate.
Defined.

Lemma unauthorized_iff_witness :
  reply_status (fst (app env_ok (GetModels (Some "wrong-key")))) = 401.
Proof.
  apply (proj2 (unauthorized_iff env_ok (GetModels (Some "wrong-key")))).
  split; [reflexivity | discriminate].
Defined.

Lemma models_same_gate_witness :
  fst (app env_ok (GetModels (Some "test-api-key-12345"))) =
    JsonReply 200 list_available_models.
Proof.
  apply (proj2 (models_same_gate env_ok
                  (plain (Some "test-api-key-12345") test_png))).
  reflexivity.
Defined.

Lemma collaborator_called_iff_witness :
  calls (snd (app env_ok
                (PostBgRemoveAdvanced
                   (plain (Some "test-api-key-12345") test_png)))) <> [].
Proof.
  apply (proj2 (collaborator_called_iff env_ok
                  (PostBgRemoveAdvanced
                     (plain (Some "test-api-key-12345") test_png)))).
  exists (plain (Some "test-api-key-12345") test_png).
  repeat split; [now right | discriminate].
Defined.

Lemma rembg_missing_witness :
  post_bg_remove env_bare (plain (Some "test-api-key-12345") test_png) =
    (http_exception_response 500
       "rembg not installed. Please install with: pip install rembg",
     fresh).
Proof.
  apply (rembg_missing env_bare (plain (Some "test-api-key-12345") test_png));
    reflexivity.
Defined.

Lemma success_delegates_once_witness :
  exists R s out,
    rembg env_ok = Some R /\
    new_session R "silueta" = inr s /\
    remove R png_in s (Some (mk_matting true 240 10 10)) = inr out /\
    content (fst (post_bg_remove env_ok (with_thresholds true 240 10 10)))
      = Bytes out /\
    calls (snd (post_bg_remove env_ok (with_thresholds true 240 10 10))) =
      [NewSession "silueta";
       Remove png_in s (Some (mk_matting true 240 10 10))] /\
    log (snd (post_bg_remove env_ok (with_thresholds true 240 10 10))) =
      [LogInfo "Processing image with model: silueta"].
Proof.
  apply (success_delegates_once env_ok (with_thresholds true 240 10 10)).
  reflexivity.
Defined.

Lemma logged_error_is_detail_witness :
  fst (post_bg_remove env_failing (with_thresholds false 240 10 10)) =
    http_exception_response 500 "Error processing image: Processing failed".
Proof.
  apply (logged_error_is_detail env_failing
           (with_thresholds false 240 10 10)).
  right. left. reflexivity.
Defined.

Lemma refusal_comes_first_witness :
  exists d,
    post_bg_remove env_ok (plain (Some "wrong-key") test_txt) =
      (http_exception_response 401 d, fresh) /\
    (d = "X-API-Key header is required" \/ d = "Invalid API key").
Proof.
  apply (refusal_comes_first env_ok (plain (Some "wrong-key") test_txt)).
  discriminate.
Defined.

Lemma image_prefix_suffices_witness :
  status (fst (post_bg_remove env_ok
                 (plain (Some "test-api-key-12345") bare_image))) = 200 \/
  status (fst (post_bg_remove env_ok
                 (plain (Some "test-api-key-12345") bare_image))) = 500.
Proof.
  apply (image_prefix_suffices env_ok
           (plain (Some "test-api-key-12345") bare_image) "");
    reflexivity.
Defined.

Lemma model_name_verbatim_witness :
  exists rest,
    calls (snd (post_bg_remove env_ok (with_thresholds false 240 10 10))) =
      NewSession "silueta" :: rest.
Proof.
  apply (model_name_verbatim env_ok (with_thresholds false 240 10 10)
           "silueta");
    try reflexivity.
  discriminate.
Defined.
